(** * The authentication gate of the CA server (cli/server/auth.go)

    A shallow embedding of [copAuthHandler], its constructors and its
    request handler, followed by the properties of the gate.

    What the Go file takes from other packages is kept apart from what it
    defines itself:
    - the Go library (net/http headers, ioutil.ReadAll, math/big and
      encoding/hex printing) is written out in the module [GoLib];
    - values and functions of the repository declared outside auth.go
      ([errNoAuthHdr], [errBasicAuthNotAllowed], [util.HTTPRequestToString],
      [util.VerifyToken]) and [parseBasicAuth] of net/http are fields of the
      record [Externals]; the global [CFG] is a [Config];
    - [log.Debug], [log.Debugf] and [log.Errorf] only print and are left
      out; [util.HTTPRequestToString] is kept because it receives the
      request pointer. *)

From Stdlib Require Import ZArith Ascii String.
From Stdlib Require Strings.Byte.
From stdpp Require Import base option list strings gmap pretty.

Local Open Scope string_scope.

Abbreviation byte := Byte.byte.

(** ** Values of Go's [error] interface

    [errors.New] builds a message; cfssl's [errors.HTTPError] pairs an HTTP
    status code with the error it wraps.  Two errors are compared by their
    contents. *)
Inductive error : Type :=
| errors_New (text : string)
| HTTPError (StatusCode : Z) (err : error).

Global Instance error_eq_dec : EqDecision error.
Proof. solve_decision. Defined.

Module cerr.
Definition StatusBadRequest : Z := 400.
(** cfssl: [func NewBadRequest(err error) *HTTPError]. *)
Definition NewBadRequest (err : error) : error := HTTPError StatusBadRequest err.
End cerr.

Module GoLib.

(** *** net/textproto: canonical header keys *)

Definition is_lower (c : ascii) : bool :=
  (97 <=? N_of_ascii c)%N && (N_of_ascii c <=? 122)%N.
Definition is_upper (c : ascii) : bool :=
  (65 <=? N_of_ascii c)%N && (N_of_ascii c <=? 90)%N.
Definition is_digit (c : ascii) : bool :=
  (48 <=? N_of_ascii c)%N && (N_of_ascii c <=? 57)%N.

Definition to_upper (c : ascii) : ascii := ascii_of_N (N_of_ascii c - 32).
Definition to_lower (c : ascii) : ascii := ascii_of_N (N_of_ascii c + 32).

Fixpoint mem_ascii (c : ascii) (s : string) : bool :=
  match s with
  | EmptyString => false
  | String d s' => if Ascii.eqb c d then true else mem_ascii c s'
  end.

(** The bytes RFC 7230 allows in a header field name. *)
Definition validHeaderFieldByte (c : ascii) : bool :=
  is_lower c || is_upper c || is_digit c || mem_ascii c "!#$%&'*+-.^_`|~".

Fixpoint all_ascii (p : ascii -> bool) (s : string) : bool :=
  match s with
  | EmptyString => true
  | String c s' => p c && all_ascii p s'
  end.

(** First letter and every letter after a dash in upper case, the other
    letters in lower case. *)
Fixpoint canonical_go (upper : bool) (s : string) : string :=
  match s with
  | EmptyString => EmptyString
  | String c s' =>
      let c' := if upper && is_lower c then to_upper c
                else if negb upper && is_upper c then to_lower c
                else c in
      String c' (canonical_go (Ascii.eqb c' "-") s')
  end.

(** [textproto.CanonicalMIMEHeaderKey]: a key with a byte that is not
    allowed in a field name is returned as it is. *)
Definition CanonicalMIMEHeaderKey (s : string) : string :=
  if all_ascii validHeaderFieldByte s then canonical_go true s else s.

(** *** net/http: [Header] is [map[string][]string] *)

Abbreviation Header := (gmap string (list string)).

(** [Header.Get]: the first value stored under the canonical form of the
    key, the empty string when there is none. *)
Definition Header_Get (h : Header) (key : string) : string :=
  match h !! CanonicalMIMEHeaderKey key with
  | Some (v :: _) => v
  | _ => ""
  end.

(** *** io: the request body

    A body is read once: [unread] are the bytes still to come and [fault]
    tells how the stream ends, at end of file ([None]) or with a read
    error. *)
Record ReadCloser : Type := mkReadCloser {
  unread : list byte;
  fault : option error
}.

(** [ioutil.ReadAll]: everything up to the end of the stream, and the
    error that stopped the reading if it was not end of file.  The reader
    is left drained. *)
Definition ReadAll (rc : ReadCloser) : (list byte * option error) * ReadCloser :=
  ((unread rc, fault rc), {| unread := []; fault := fault rc |}).

(** [ioutil.NopCloser(bytes.NewReader(b))]: a fresh reader over [b]. *)
Definition NopCloser_NewReader (b : list byte) : ReadCloser :=
  {| unread := b; fault := None |}.

(** *** encoding/hex and math/big *)

Definition hextable : string := "0123456789abcdef".

Definition hexdigit (n : N) : ascii :=
  match String.get (N.to_nat n) hextable with
  | Some c => c
  | None => "0"%char
  end.

(** [hex.EncodeToString]: two lower-case digits per byte. *)
Fixpoint EncodeToString (src : list byte) : string :=
  match src with
  | [] => EmptyString
  | b :: src' =>
      let v := Byte.to_N b in
      String (hexdigit (N.shiftr v 4))
        (String (hexdigit (N.land v 15)) (EncodeToString src'))
  end.

(** [big.Int.String]: the decimal digits, with a sign when negative. *)
Definition Int_String (x : Z) : string := pretty x.

End GoLib.
Import GoLib.

(** ** Data of the request and of the certificate store *)

(** The parts of [http.Request] the gate reads or writes. *)
Record Request : Type := mkRequest {
  Header : GoLib.Header;
  Body : ReadCloser
}.

(** The fields of [x509.Certificate] the gate reads. *)
Record Certificate : Type := mkCertificate {
  SerialNumber : Z;
  AuthorityKeyId : list byte
}.

(** [certdb.CertificateRecord], as far as the gate is concerned. *)
Record CertificateRecord : Type := mkCertificateRecord {
  Serial : string;
  AKI : string;
  Status : string
}.

(** ** What auth.go takes from the rest of the server *)

(** The [spi.UserRegistry] interface: the one method the gate calls. *)
Record spi_UserRegistry : Type := mkUserRegistry {
  User : Type;
  LoginUserBasicAuth : string -> string -> option User * option error
}.

(** The certificate store behind [CFG.certDBAccessor]. *)
Record Accessor : Type := mkAccessor {
  GetCertificate : string -> string -> list CertificateRecord * option error
}.

(** The fields of the server configuration ([CFG]) the gate reads. *)
Record Config : Type := mkConfig {
  Authentication : bool;
  UserRegistry : spi_UserRegistry;
  certDBAccessor : Accessor
}.

(** Package-level values and helpers that auth.go uses and that are
    declared in other files: the two error values of package server, the
    two helpers of package util, and the parser behind
    [http.Request.BasicAuth].  [HTTPRequestToString] is handed the request
    pointer, so it returns the request it leaves behind next to its text.
    [VerifyToken] returns the signer's certificate or an error. *)
Record Externals : Type := mkExternals {
  errNoAuthHdr : error;
  errBasicAuthNotAllowed : error;
  HTTPRequestToString : Request -> string * Request;
  VerifyToken : string -> list byte -> Certificate + error;
  parseBasicAuth : string -> string * string * bool
}.

(** ** Handlers

    An [http.Handler] is the nil interface, a handler defined elsewhere
    (of some type [H]) or a [copAuthHandler]. *)
Inductive Handler (H : Type) : Type :=
| nil_Handler
| foreign_Handler (h : H)
| auth_Handler (ah : copAuthHandler H)
with copAuthHandler (H : Type) : Type :=
| mk_copAuthHandler (basic token : bool) (next : Handler H).

Arguments nil_Handler {H}.
Arguments foreign_Handler {H} h.
Arguments auth_Handler {H} ah.
Arguments mk_copAuthHandler {H} basic token next.

Definition basic {H} (ah : copAuthHandler H) : bool :=
  match ah with mk_copAuthHandler b _ _ => b end.
Definition token {H} (ah : copAuthHandler H) : bool :=
  match ah with mk_copAuthHandler _ t _ => t end.
Definition next {H} (ah : copAuthHandler H) : Handler H :=
  match ah with mk_copAuthHandler _ _ n => n end.

(** [var authError = cerr.NewBadRequest(errors.New("authorization failure"))] *)
Definition authError : error :=
  cerr.NewBadRequest (errors_New "authorization failure").

(** ** The handler factory *)

Definition wrappedPath (path : string) : string := "/api/v1/cfssl/" ++ path.

Definition newAuthHandler {H} (basic token : bool) (handler : Handler H)
    (errArg : option error) : Handler H * option error :=
  match errArg with
  | Some e => (nil_Handler, Some e)
  | None => (auth_Handler (mk_copAuthHandler basic token handler), None)
  end.

Definition newBasicAuthHandler {H} (handler : Handler H) (errArg : option error)
    : Handler H * option error :=
  newAuthHandler true false handler errArg.

Definition newTokenAuthHandler {H} (handler : Handler H) (errArg : option error)
    : Handler H * option error :=
  newAuthHandler false true handler errArg.

Definition NewAuthWrapper {H} (path : string) (handler : Handler H)
    (err : option error) : string * Handler H * option error :=
  if bool_decide (path = "sign") || bool_decide (path = "enroll") then
    let '(handler, err) := newBasicAuthHandler handler err in
    (wrappedPath path, handler, err)
  else
    let '(handler, err) := newTokenAuthHandler handler err in
    (wrappedPath path, handler, err).

(** ** The gate

    [serveHTTP] works on the request it was handed a pointer to and calls
    out of the file.  Its model threads the request and keeps, in order,
    the calls it makes and the assignment to [r.Body]; every entry carries
    what the call returned. *)
Inductive Event : Type :=
| Ev_HTTPRequestToString
| Ev_Header_Get (key value : string)
| Ev_BasicAuth (user pwd : string) (ok : bool)
| Ev_LoginUserBasicAuth (user pwd : string) (err : option error)
| Ev_ReadAll (body : list byte) (err : option error)
| Ev_set_Body (b : ReadCloser)
| Ev_VerifyToken (authHdr : string) (body : list byte) (res : Certificate + error)
| Ev_GetCertificate (serial aki : string) (certs : list CertificateRecord)
    (err : option error).

Record State : Type := mkState {
  request : Request;
  events : list Event
}.

Definition M (A : Type) : Type := State -> A * State.

Definition ret {A} (a : A) : M A := fun s => (a, s).
Definition bind {A B} (m : M A) (k : A -> M B) : M B :=
  fun s => let '(a, s') := m s in k a s'.

Declare Scope gate_scope.
Delimit Scope gate_scope with gate.
Notation "x <- m ;; k" := (bind m (fun x => k))
  (at level 100, m at next level, right associativity) : gate_scope.
Notation "m ;;; k" := (bind m (fun _ => k))
  (at level 100, right associativity) : gate_scope.

Definition emit (e : Event) : M unit :=
  fun s => (tt, {| request := request s; events := events s ++ [e] |}).
Definition get_request : M Request := fun s => (request s, s).
Definition put_request (r : Request) : M unit :=
  fun s => (tt, {| request := r; events := events s |}).

(** What [ServeHTTP] ends with: the error responder or the next handler. *)
Inductive Outcome (H : Type) : Type :=
| api_HandleError (err : error)
| next_ServeHTTP (next : Handler H) (r : Request).
Arguments api_HandleError {H} err.
Arguments next_ServeHTTP {H} next r.

Section Gate.
Context {H : Type}.
Variable E : Externals.
Variable CFG : Config.

Local Open Scope gate_scope.

(** [http.Request.BasicAuth]: no credentials without an Authorization
    header, otherwise what [parseBasicAuth] makes of it. *)
Definition Request_BasicAuth (r : Request) : string * string * bool :=
  let auth := Header_Get (Header r) "Authorization" in
  if bool_decide (auth = "") then ("", "", false) else parseBasicAuth E auth.

Definition call_HTTPRequestToString : M string :=
  r <- get_request ;;
  let '(text, r') := HTTPRequestToString E r in
  put_request r' ;;;
  emit Ev_HTTPRequestToString ;;;
  ret text.

Definition call_Header_Get (key : string) : M string :=
  r <- get_request ;;
  let v := Header_Get (Header r) key in
  emit (Ev_Header_Get key v) ;;;
  ret v.

Definition call_BasicAuth : M (string * string * bool) :=
  r <- get_request ;;
  let '(user, pwd, ok) := Request_BasicAuth r in
  emit (Ev_BasicAuth user pwd ok) ;;;
  ret (user, pwd, ok).

Definition call_LoginUserBasicAuth (cfg : Config) (user pwd : string)
    : M (option error) :=
  let '(_, err) := LoginUserBasicAuth (UserRegistry cfg) user pwd in
  emit (Ev_LoginUserBasicAuth user pwd err) ;;;
  ret err.

Definition call_ReadAll_Body : M (list byte * option error) :=
  r <- get_request ;;
  let '(res, rc) := ReadAll (Body r) in
  put_request {| Header := Header r; Body := rc |} ;;;
  emit (Ev_ReadAll (fst res) (snd res)) ;;;
  ret res.

Definition set_Body (b : ReadCloser) : M unit :=
  r <- get_request ;;
  put_request {| Header := Header r; Body := b |} ;;;
  emit (Ev_set_Body b).

Definition call_VerifyToken (authHdr : string) (body : list byte)
    : M (Certificate + error) :=
  let res := VerifyToken E authHdr body in
  emit (Ev_VerifyToken authHdr body res) ;;;
  ret res.

Definition call_GetCertificate (serial aki : string)
    : M (list CertificateRecord * option error) :=
  let '(certs, err) := GetCertificate (certDBAccessor CFG) serial aki in
  emit (Ev_GetCertificate serial aki certs err) ;;;
  ret (certs, err).

(** [func (ah *copAuthHandler) serveHTTP(w, r) error]; [None] is Go's nil. *)
Definition serveHTTP (ah : copAuthHandler H) : M (option error) :=
  call_HTTPRequestToString ;;;
  let cfg := CFG in
  if negb (Authentication cfg) then ret None else
  authHdr <- call_Header_Get "authorization" ;;
  if bool_decide (authHdr = "") then ret (Some (errNoAuthHdr E)) else
  cred <- call_BasicAuth ;;
  let '(user, pwd, ok) := cred in
  if ok then
    if negb (basic ah) then ret (Some (errBasicAuthNotAllowed E)) else
    err <- call_LoginUserBasicAuth cfg user pwd ;;
    match err with
    | Some err => ret (Some err)
    | None => ret None
    end
  else
  (* Perform token verification *)
  if token ah then
    read <- call_ReadAll_Body ;;
    let '(body, err) := read in
    match err with
    | Some _ => ret (Some authError)
    | None =>
    set_Body (NopCloser_NewReader body) ;;;
    res <- call_VerifyToken authHdr body ;;
    match res with
    | inr _ => ret (Some authError)
    | inl cert =>
    (* check status of certificate *)
    let serial := Int_String (SerialNumber cert) in
    let aki := EncodeToString (AuthorityKeyId cert) in
    found <- call_GetCertificate serial aki ;;
    let '(certs, err) := found in
    match err with
    | Some _ => ret (Some authError)
    | None =>
    if negb (length certs =? 1)%nat then ret (Some authError) else
    match certs !! 0%nat with
    | None => ret (Some authError) (* out of reach: [certs] has one element *)
    | Some c =>
    if negb (bool_decide (Status c = "good")) then ret (Some authError) else
    ret None
    end end end end
  else ret None.

(** [func (ah *copAuthHandler) ServeHTTP(w, r)]: how the handler ends, the
    request as the gate leaves it, and what the gate did on the way. *)
Definition ServeHTTP (ah : copAuthHandler H) (r : Request)
    : Outcome H * list Event :=
  let '(err, s) := serveHTTP ah {| request := r; events := [] |} in
  match err with
  | Some err => (api_HandleError err, events s)
  | None => (next_ServeHTTP (next ah) (request s), events s)
  end.

End Gate.


Arguments ServeHTTP {H} E CFG ah r.
Arguments serveHTTP {H} E CFG ah _.

(** ** The two policies of the specification

    The specification speaks of a policy bound to every route; the code
    keeps two flags.  [policy_of] reads the flags the way the constructors
    [newBasicAuthHandler] and [newTokenAuthHandler] set them. *)
Inductive AuthPolicy : Type := BasicOnly | TokenOnly.

Definition policy_of {H} (ah : copAuthHandler H) : option AuthPolicy :=
  match basic ah, token ah with
  | true, false => Some BasicOnly
  | false, true => Some TokenOnly
  | _, _ => None
  end.

(** The request as the gate sees it once the logging helper has run. *)
Definition received (E : Externals) (r : Request) : Request :=
  snd (HTTPRequestToString E r).

(** The gate handed the request to the handler it wraps. *)
Definition forwards {H} (ah : copAuthHandler H) (o : Outcome H) : Prop :=
  exists r', o = next_ServeHTTP (next ah) r'.

(** The gate answered with an error; the next handler is not called. *)
Definition rejects_with {H} (e : error) (o : Outcome H) : Prop :=
  o = api_HandleError e.

(** ** One error for every failure? *)

(** The internal causes of a rejection, as the run of the gate shows them:
    the registry refused the secret, the store has the certificate as
    revoked, the store failed, the token did not verify. *)
Inductive Cause : Type :=
| BadSecret
| RevokedCertificate
| StoreError
| UnverifiableToken.

Definition shows_cause (c : Cause) (evs : list Event) : Prop :=
  match c with
  | BadSecret => exists user pwd e, Ev_LoginUserBasicAuth user pwd (Some e) ∈ evs
  | RevokedCertificate =>
      exists serial aki rec,
        Ev_GetCertificate serial aki [rec] None ∈ evs /\ Status rec = "revoked"
  | StoreError =>
      exists serial aki certs e, Ev_GetCertificate serial aki certs (Some e) ∈ evs
  | UnverifiableToken =>
      exists authHdr body e, Ev_VerifyToken authHdr body (inr e) ∈ evs
  end.

(** The gate answers request [r] with error [e], and the cause is [c]. *)
Definition rejected_for {H} (E : Externals) (CFG : Config)
    (ah : copAuthHandler H) (r : Request) (c : Cause) (e : error) : Prop :=
  fst (ServeHTTP E CFG ah r) = api_HandleError e
  /\ shows_cause c (snd (ServeHTTP E CFG ah r)).

(** Uniform rejection: two requests refused for different causes get the
    same error. *)
Definition uniform_rejection (H : Type) (E : Externals) (CFG : Config) : Prop :=
  forall (ah1 ah2 : copAuthHandler H) (r1 r2 : Request) (c1 c2 : Cause)
         (e1 e2 : error),
    c1 <> c2 ->
    rejected_for E CFG ah1 r1 c1 e1 ->
    rejected_for E CFG ah2 r2 c2 e2 ->
    e1 = e2.

(** ** A small deployment to run the model on *)
Module Sample.

Definition alice_header : string := "Basic YWxpY2U6czNjcmV0".
Definition bob_header : string := "Basic Ym9iOndyb25n".
Definition bearer_header : string := "Bearer abc".
Definition good_token : string := "Y2VydA==.c2lnLWdvb2Q=".
Definition revoked_token : string := "Y2VydA==.c2lnLXJldm9rZWQ=".
Definition orphan_token : string := "Y2VydA==.c2lnLW9ycGhhbg==".
Definition twin_token : string := "Y2VydA==.c2lnLXR3aW4=".
Definition lost_token : string := "Y2VydA==.c2lnLWxvc3Q=".

Definition cert_of (serial : Z) : Certificate :=
  {| SerialNumber := serial;
     AuthorityKeyId := [Byte.xde; Byte.xad; Byte.xbe; Byte.xef] |}.

(** The logging helper reads the body and puts it back. *)
Definition E : Externals :=
  {| errNoAuthHdr := errors_New "No authorization header";
     errBasicAuthNotAllowed := errors_New "Basic authentication is not allowed";
     HTTPRequestToString := fun r =>
       ("request", {| Header := Header r;
                      Body := NopCloser_NewReader (unread (Body r)) |});
     VerifyToken := fun authHdr _ =>
       if bool_decide (authHdr = good_token) then inl (cert_of 427)
       else if bool_decide (authHdr = revoked_token) then inl (cert_of 428)
       else if bool_decide (authHdr = orphan_token) then inl (cert_of 429)
       else if bool_decide (authHdr = twin_token) then inl (cert_of 430)
       else if bool_decide (authHdr = lost_token) then inl (cert_of 431)
       else inr (errors_New "Invalid token format");
     parseBasicAuth := fun auth =>
       if bool_decide (auth = alice_header) then ("alice", "s3cret", true)
       else if bool_decide (auth = bob_header) then ("bob", "wrong", true)
       else ("", "", false) |}.

Definition registry : spi_UserRegistry :=
  {| User := string;
     LoginUserBasicAuth := fun user pwd =>
       if bool_decide (user = "alice") && bool_decide (pwd = "s3cret")
       then (Some "alice", None)
       else (None, Some (errors_New "Incorrect password")) |}.

Definition record (serial status : string) : CertificateRecord :=
  {| Serial := serial; AKI := "deadbeef"; Status := status |}.

Definition store : Accessor :=
  {| GetCertificate := fun serial aki =>
       if negb (bool_decide (aki = "deadbeef")) then ([], None)
       else if bool_decide (serial = "427") then ([record "427" "good"], None)
       else if bool_decide (serial = "428") then ([record "428" "revoked"], None)
       else if bool_decide (serial = "430")
            then ([record "430" "good"; record "430" "good"], None)
       else if bool_decide (serial = "431")
            then ([], Some (errors_New "database is locked"))
       else ([], None) |}.

Definition CFG : Config :=
  {| Authentication := true; UserRegistry := registry; certDBAccessor := store |}.

Definition CFG_open : Config :=
  {| Authentication := false; UserRegistry := registry; certDBAccessor := store |}.

Definition payload : list byte := [Byte.x7b; Byte.x7d].

Definition request_with (authHdr : list string) : Request :=
  {| Header := list_to_map (map (fun v => ("Authorization", [v])) authHdr);
     Body := {| unread := payload; fault := None |} |}.

Definition enroll_next : Handler string := foreign_Handler "enroll".
Definition revoke_next : Handler string := foreign_Handler "revoke".

Definition enroll_gate : copAuthHandler string :=
  mk_copAuthHandler true false enroll_next.
Definition revoke_gate : copAuthHandler string :=
  mk_copAuthHandler false true revoke_next.

End Sample.


(** ** A second deployment: the logging helper leaves the request alone *)
Module Plain.

Definition E : Externals :=
  {| errNoAuthHdr := errNoAuthHdr Sample.E;
     errBasicAuthNotAllowed := errBasicAuthNotAllowed Sample.E;
     HTTPRequestToString := fun r => ("request", r);
     VerifyToken := VerifyToken Sample.E;
     parseBasicAuth := parseBasicAuth Sample.E |}.

(** A request whose body breaks off after the payload. *)
Definition broken_request : Request :=
  {| Header := {["Authorization" := [Sample.good_token]]};
     Body := {| unread := Sample.payload;
                fault := Some (errors_New "unexpected EOF") |} |}.

(** A gate with both flags set, as [newAuthHandler true true] builds it. *)
Definition either_gate : copAuthHandler string :=
  mk_copAuthHandler true true Sample.revoke_next.

End Plain.

(** ** Reading a hex string back

    The inverse of [EncodeToString] on its own output; it serves to show
    that the lookup key loses nothing of the authority key id. *)
Definition hexvalue (c : ascii) : N :=
  if GoLib.is_digit c then N_of_ascii c - 48 else N_of_ascii c - 87.

Fixpoint hex_decode (s : string) : list byte :=
  match s with
  | String hi (String lo s') =>
      match Byte.of_N (16 * hexvalue hi + hexvalue lo) with
      | Some b => b :: hex_decode s'
      | None => []
      end
  | _ => []
  end.

(** The calls a run makes to the token side of the gate: reading and
    restoring the body, verifying the token, asking the store. *)
Definition token_side (ev : Event) : bool :=
  match ev with
  | Ev_ReadAll _ _ | Ev_set_Body _ | Ev_VerifyToken _ _ _
  | Ev_GetCertificate _ _ _ _ => true
  | _ => false
  end.

(** The call to the registry. *)
Definition registry_side (ev : Event) : bool :=
  match ev with
  | Ev_LoginUserBasicAuth _ _ _ => true
  | _ => false
  end.

(** * Properties *)

(** ** The library and the sample deployment, run *)

Example canonical_authorization :
  CanonicalMIMEHeaderKey "authorization" = "Authorization".
Proof. reflexivity. Qed.

Example hex_deadbeef :
  EncodeToString [Byte.xde; Byte.xad; Byte.xbe; Byte.xef] = "deadbeef".
Proof. reflexivity. Qed.

Example serial_decimal : Int_String 427 = "427".
Proof. reflexivity. Qed.


Example sample_enroll_alice :
  fst (ServeHTTP Sample.E Sample.CFG Sample.enroll_gate
         (Sample.request_with [Sample.alice_header]))
  = next_ServeHTTP Sample.enroll_next
      (Sample.request_with [Sample.alice_header]).
Proof. vm_compute. reflexivity. Qed.

Example sample_no_header :
  fst (ServeHTTP Sample.E Sample.CFG Sample.revoke_gate (Sample.request_with []))
  = api_HandleError (errors_New "No authorization header").
Proof. vm_compute. reflexivity. Qed.

(** No record, and two records, for the certificate of a verified token. *)
Example sample_orphan_certificate :
  ServeHTTP Sample.E Sample.CFG Sample.revoke_gate
    (Sample.request_with [Sample.orphan_token])
  = (api_HandleError authError,
     [Ev_HTTPRequestToString;
      Ev_Header_Get "authorization" Sample.orphan_token;
      Ev_BasicAuth "" "" false;
      Ev_ReadAll Sample.payload None;
      Ev_set_Body (NopCloser_NewReader Sample.payload);
      Ev_VerifyToken Sample.orphan_token Sample.payload
        (inl (Sample.cert_of 429));
      Ev_GetCertificate "429" "deadbeef" [] None]).
Proof. vm_compute. reflexivity. Qed.

Example sample_twin_certificate :
  fst (ServeHTTP Sample.E Sample.CFG Sample.revoke_gate
         (Sample.request_with [Sample.twin_token]))
  = api_HandleError authError.
Proof. vm_compute. reflexivity. Qed.

(** ** Running the gate: one equation per call *)
Section Steps.
Context {H : Type} (E : Externals) (CFG : Config).
Context {B : Type} (k : unit -> M B) (s : State).

Lemma run_HTTPRequestToString (f : string -> M B) :
  bind (call_HTTPRequestToString E) f s
  = f (fst (HTTPRequestToString E (request s)))
      {| request := received E (request s);
         events := events s ++ [Ev_HTTPRequestToString] |}.
Proof.
  unfold call_HTTPRequestToString, received, bind, get_request.
  destruct (HTTPRequestToString E (request s)); reflexivity.
Qed.

Lemma run_Header_Get (key : string) (f : string -> M B) :
  bind (call_Header_Get key) f s
  = f (Header_Get (Header (request s)) key)
      {| request := request s;
         events := events s
                   ++ [Ev_Header_Get key (Header_Get (Header (request s)) key)] |}.
Proof. reflexivity. Qed.

Lemma run_BasicAuth (f : string * string * bool -> M B) user pwd ok :
  Request_BasicAuth E (request s) = (user, pwd, ok) ->
  bind (call_BasicAuth E) f s
  = f (user, pwd, ok)
      {| request := request s;
         events := events s ++ [Ev_BasicAuth user pwd ok] |}.
Proof.
  intros Hcred. unfold call_BasicAuth, bind, get_request.
  rewrite Hcred. reflexivity.
Qed.

Lemma run_LoginUserBasicAuth (cfg : Config) user pwd (f : option error -> M B) :
  bind (call_LoginUserBasicAuth cfg user pwd) f s
  = let err := snd (LoginUserBasicAuth (UserRegistry cfg) user pwd) in
    f err {| request := request s;
             events := events s ++ [Ev_LoginUserBasicAuth user pwd err] |}.
Proof.
  unfold call_LoginUserBasicAuth, bind.
  destruct (LoginUserBasicAuth (UserRegistry cfg) user pwd); reflexivity.
Qed.

Lemma run_ReadAll_Body (f : list byte * option error -> M B) :
  bind call_ReadAll_Body f s
  = let rc := Body (request s) in
    f (unread rc, fault rc)
      {| request := {| Header := Header (request s);
                       Body := {| unread := []; fault := fault rc |} |};
         events := events s ++ [Ev_ReadAll (unread rc) (fault rc)] |}.
Proof. reflexivity. Qed.

Lemma run_set_Body (b : ReadCloser) :
  bind (set_Body b) k s
  = k tt {| request := {| Header := Header (request s); Body := b |};
            events := events s ++ [Ev_set_Body b] |}.
Proof. reflexivity. Qed.

Lemma run_VerifyToken authHdr body (f : Certificate + error -> M B) :
  bind (call_VerifyToken E authHdr body) f s
  = let res := VerifyToken E authHdr body in
    f res {| request := request s;
             events := events s ++ [Ev_VerifyToken authHdr body res] |}.
Proof. reflexivity. Qed.

Lemma run_GetCertificate serial aki
    (f : list CertificateRecord * option error -> M B) certs err :
  GetCertificate (certDBAccessor CFG) serial aki = (certs, err) ->
  bind (call_GetCertificate CFG serial aki) f s
  = f (certs, err)
      {| request := request s;
         events := events s ++ [Ev_GetCertificate serial aki certs err] |}.
Proof.
  intros Hget. unfold call_GetCertificate, bind. rewrite Hget. reflexivity.
Qed.

End Steps.

Ltac gate_simpl :=
  try unfold ret;
  cbn [request events fst snd negb app Header Body unread fault length
       Nat.eqb lookup list_lookup].

(** Follows the body of [serveHTTP] branch by branch. *)
Ltac gate_walk :=
  repeat (gate_simpl;
    match goal with
    | |- context [bind (call_HTTPRequestToString _) _ _] =>
        rewrite run_HTTPRequestToString
    | |- context [bind (call_Header_Get _) _ _] => rewrite run_Header_Get
    | |- context [bind (call_BasicAuth ?E) _ ?s] =>
        let user := fresh "user" in
        let pwd := fresh "pwd" in
        let ok := fresh "ok" in
        let Hcred := fresh "Hcred" in
        let r0 := eval cbn [request] in (request s) in
        destruct (Request_BasicAuth E r0) as [[user pwd] ok] eqn:Hcred;
        rewrite (run_BasicAuth E s _ user pwd ok Hcred)
    | |- context [bind (call_LoginUserBasicAuth _ _ _) _ _] =>
        rewrite run_LoginUserBasicAuth
    | |- context [bind call_ReadAll_Body _ _] => rewrite run_ReadAll_Body
    | |- context [bind (set_Body _) _ _] => rewrite run_set_Body
    | |- context [bind (call_VerifyToken _ _ _) _ _] => rewrite run_VerifyToken
    | |- context [bind (call_GetCertificate ?C ?serial ?aki) _ _] =>
        let certs := fresh "certs" in
        let err := fresh "err" in
        let Hget := fresh "Hget" in
        destruct (GetCertificate (certDBAccessor C) serial aki)
          as [certs err] eqn:Hget;
        rewrite (run_GetCertificate C _ _ _ _ certs err Hget)
    | |- context [(if negb (length ?l =? 1)%nat then _ else _) _] =>
        destruct l as [|? [|? ?]]
    | |- context [(if negb ?b then _ else _) _] =>
        let Hb := fresh "Hb" in destruct b eqn:Hb
    | |- context [(if ?b then _ else _) _] =>
        let Hb := fresh "Hb" in destruct b eqn:Hb
    | |- context [(match ?x with Some _ => _ | None => _ end) _] =>
        let Hx := fresh "Hx" in destruct x eqn:Hx
    | |- context [(match ?x with inl _ => _ | inr _ => _ end) _] =>
        let Hx := fresh "Hx" in destruct x eqn:Hx
    end);
  gate_simpl.

(** Turns the tests the walk has recorded into facts; two results recorded
    for the same call are the same result. *)
Ltac gate_facts :=
  repeat match goal with
  | Hb : bool_decide _ = true |- _ => apply bool_decide_eq_true in Hb
  | Hb : bool_decide _ = false |- _ => apply bool_decide_eq_false in Hb
  | H1 : ?x = (_, _), H2 : ?x = (_, _) |- _ => rewrite H1 in H2
  end;
  simplify_eq.

(** Which entry of an explicit event list a given event is. *)
Ltac event_in Hin :=
  repeat match type of Hin with
  | _ ∈ [] => apply elem_of_nil in Hin; destruct Hin
  | _ ∈ _ :: _ =>
      apply elem_of_cons in Hin as [Hin | Hin]; [try discriminate Hin | ]
  end.

(** Finds an event of a given shape in an explicit event list. *)
Ltac event_find :=
  solve [repeat first [apply list_elem_of_here | apply list_elem_of_further]].

(** ** Facts about the library and the flags *)

Lemma Header_Get_authorization (h : GoLib.Header) :
  Header_Get h "authorization" = Header_Get h "Authorization".
Proof. reflexivity. Qed.

Lemma BasicAuth_ok_header (E : Externals) (r : Request) user pwd :
  Request_BasicAuth E r = (user, pwd, true) ->
  Header_Get (Header r) "authorization" <> "".
Proof.
  unfold Request_BasicAuth. rewrite Header_Get_authorization.
  case_bool_decide; [discriminate | auto].
Qed.

Lemma policy_BasicOnly {H} (ah : copAuthHandler H) :
  policy_of ah = Some BasicOnly <-> basic ah = true /\ token ah = false.
Proof. unfold policy_of. destruct (basic ah), (token ah); intuition congruence. Qed.

Lemma policy_TokenOnly {H} (ah : copAuthHandler H) :
  policy_of ah = Some TokenOnly <-> basic ah = false /\ token ah = true.
Proof. unfold policy_of. destruct (basic ah), (token ah); intuition congruence. Qed.

Lemma forwards_next {H} (ah : copAuthHandler H) (r : Request) :
  forwards ah (next_ServeHTTP (next ah) r).
Proof. exists r. reflexivity. Qed.

Lemma forwards_not_error {H} (ah : copAuthHandler H) (e : error) :
  ~ forwards ah (api_HandleError e).
Proof. intros [r' Hr']. discriminate Hr'. Qed.

Create HintDb gate.
#[local] Hint Resolve forwards_next forwards_not_error : gate.

(** ** The handler factory *)

Section Factory.
Context {H : Type}.
Implicit Types (path : string) (handler : Handler H) (e : error).

Lemma NewAuthWrapper_basic path handler err :
  path = "sign" \/ path = "enroll" ->
  NewAuthWrapper path handler err
  = (wrappedPath path, fst (newBasicAuthHandler handler err),
     snd (newBasicAuthHandler handler err)).
Proof.
  intros Hpath. unfold NewAuthWrapper.
  replace (bool_decide (path = "sign") || bool_decide (path = "enroll"))
    with true.
  - destruct (newBasicAuthHandler handler err); reflexivity.
  - symmetry. apply orb_true_iff.
    destruct Hpath; [left | right]; apply bool_decide_eq_true; assumption.
Qed.

Lemma NewAuthWrapper_token path handler err :
  ~ (path = "sign" \/ path = "enroll") ->
  NewAuthWrapper path handler err
  = (wrappedPath path, fst (newTokenAuthHandler handler err),
     snd (newTokenAuthHandler handler err)).
Proof.
  intros Hpath. unfold NewAuthWrapper.
  replace (bool_decide (path = "sign") || bool_decide (path = "enroll"))
    with false.
  - destruct (newTokenAuthHandler handler err); reflexivity.
  - symmetry. apply orb_false_iff.
    split; apply bool_decide_eq_false; intros Heq; apply Hpath; auto.
Qed.

(** C4: for every endpoint name the factory builds a gate around the given
    handler; the gate is basic-only exactly when the name is "sign" or
    "enroll" and token-only for every other name, so every name gets one
    of the two policies. *)
Theorem factory_policy_by_endpoint path handler :
  exists ah : copAuthHandler H,
    NewAuthWrapper path handler None
    = (wrappedPath path, auth_Handler ah, None)
    /\ next ah = handler
    /\ (policy_of ah = Some BasicOnly <-> path = "sign" \/ path = "enroll")
    /\ (policy_of ah = Some TokenOnly <-> ~ (path = "sign" \/ path = "enroll"))
    /\ policy_of ah <> None.
Proof.
  destruct (decide (path = "sign" \/ path = "enroll")) as [Hpath | Hpath].
  - exists (mk_copAuthHandler true false handler).
    rewrite (NewAuthWrapper_basic _ _ _ Hpath). cbn.
    repeat split; auto; try discriminate. intros Hno. contradiction.
  - exists (mk_copAuthHandler false true handler).
    rewrite (NewAuthWrapper_token _ _ _ Hpath). cbn.
    repeat split; auto; try discriminate. intros Hyes. contradiction.
Qed.

(** C8: a construction error handed to the factory comes back as it is,
    for every endpoint name and next handler, and the handler returned is
    nil, not a gate. *)
Theorem factory_propagates_construction_error path handler e :
  NewAuthWrapper path handler (Some e) = (wrappedPath path, nil_Handler, Some e)
  /\ forall ah : copAuthHandler H,
       snd (fst (NewAuthWrapper path handler (Some e))) <> auth_Handler ah.
Proof.
  assert (Hrun : NewAuthWrapper path handler (Some e)
                 = (wrappedPath path, nil_Handler, Some e)).
  { destruct (decide (path = "sign" \/ path = "enroll")) as [Hpath | Hpath].
    - rewrite (NewAuthWrapper_basic _ _ _ Hpath). reflexivity.
    - rewrite (NewAuthWrapper_token _ _ _ Hpath). reflexivity. }
  split; [exact Hrun | ].
  intros ah. rewrite Hrun. cbn. discriminate.
Qed.

End Factory.

Example factory_enroll :
  NewAuthWrapper "enroll" (foreign_Handler "enroll") None
  = ("/api/v1/cfssl/enroll", auth_Handler Sample.enroll_gate, None).
Proof. reflexivity. Qed.

Example factory_revoke :
  NewAuthWrapper "revoke" (foreign_Handler "revoke") None
  = ("/api/v1/cfssl/revoke", auth_Handler Sample.revoke_gate, None).
Proof. reflexivity. Qed.

(** ** The gate, request by request *)

Section GateProperties.
Context {H : Type} (E : Externals) (CFG : Config).
Implicit Types (ah : copAuthHandler H) (r : Request).

(** C5: with authentication switched off the gate hands the request to the
    next handler whatever the policy and the headers are; the only call it
    makes is the logging helper, so the Authorization header is not fetched
    and no credential is parsed. *)
Theorem disabled_authentication_forwards ah r :
  Authentication CFG = false ->
  ServeHTTP E CFG ah r
  = (next_ServeHTTP (next ah) (received E r), [Ev_HTTPRequestToString]).
Proof.
  intros Hoff. unfold ServeHTTP, serveHTTP. gate_walk.
  all: congruence.
Qed.

(** The missing header, for every policy. *)
Lemma missing_header_rejected ah r :
  Authentication CFG = true ->
  Header_Get (Header (received E r)) "authorization" = "" ->
  fst (ServeHTTP E CFG ah r) = api_HandleError (errNoAuthHdr E).
Proof.
  intros Hon Hhdr. unfold ServeHTTP, serveHTTP. gate_walk.
  all: gate_facts; congruence.
Qed.

(** C6: on a token-only route a header that parses as Basic credentials is
    answered with [errBasicAuthNotAllowed]; the gate stops after the
    parsing, the registry is not called, whatever it would have said. *)
Theorem token_route_refuses_basic_credential ah r user pwd :
  Authentication CFG = true ->
  policy_of ah = Some TokenOnly ->
  Request_BasicAuth E (received E r) = (user, pwd, true) ->
  ServeHTTP E CFG ah r
  = (api_HandleError (errBasicAuthNotAllowed E),
     [Ev_HTTPRequestToString;
      Ev_Header_Get "authorization"
        (Header_Get (Header (received E r)) "authorization");
      Ev_BasicAuth user pwd true])
  /\ forall u p x, Ev_LoginUserBasicAuth u p x ∉ snd (ServeHTTP E CFG ah r).
Proof.
  intros Hon Hpol Hcred.
  apply policy_TokenOnly in Hpol as [Hbasic Htoken].
  pose proof (BasicAuth_ok_header _ _ _ _ Hcred) as Hhdr.
  unfold ServeHTTP, serveHTTP. gate_walk.
  all: gate_facts; try congruence.
  split; [reflexivity | ].
  intros u p x Hin. event_in Hin.
Qed.

(** C7: on a basic-only route a header that parses as Basic credentials is
    decided by the registry: the request goes to the next handler exactly
    when [LoginUserBasicAuth] returns no error, and an error of the
    registry ends the request at the error responder. *)
Theorem basic_route_follows_registry ah r user pwd :
  Authentication CFG = true ->
  policy_of ah = Some BasicOnly ->
  Request_BasicAuth E (received E r) = (user, pwd, true) ->
  let err := snd (LoginUserBasicAuth (UserRegistry CFG) user pwd) in
  let o := fst (ServeHTTP E CFG ah r) in
  (forwards ah o <-> err = None)
  /\ (forall e, err = Some e -> rejects_with e o /\ ~ forwards ah o)
  /\ Ev_LoginUserBasicAuth user pwd err ∈ snd (ServeHTTP E CFG ah r).
Proof.
  intros Hon Hpol Hcred.
  apply policy_BasicOnly in Hpol as [Hbasic Htoken].
  pose proof (BasicAuth_ok_header _ _ _ _ Hcred) as Hhdr.
  unfold ServeHTTP, serveHTTP. gate_walk.
  all: gate_facts; try congruence.
  all: cbv zeta; rewrite Hx; unfold rejects_with.
  - split; [ | split].
    + split; [ | discriminate]. intros Hf. destruct (forwards_not_error _ _ Hf).
    + intros e' [= ->]. auto with gate.
    + set_solver.
  - split; [ | split].
    + split; auto with gate.
    + discriminate.
    + set_solver.
Qed.

(** C1 (the code forwards where the claim has a rejection): on a basic-only
    route, with authentication on, a header that is present and does not
    parse as Basic credentials reaches no check at all: the gate returns
    nil after the failed parsing and the request goes to the next handler. *)
Theorem basic_route_unparsed_header_forwarded ah r user pwd :
  Authentication CFG = true ->
  policy_of ah = Some BasicOnly ->
  Header_Get (Header (received E r)) "authorization" <> "" ->
  Request_BasicAuth E (received E r) = (user, pwd, false) ->
  ServeHTTP E CFG ah r
  = (next_ServeHTTP (next ah) (received E r),
     [Ev_HTTPRequestToString;
      Ev_Header_Get "authorization"
        (Header_Get (Header (received E r)) "authorization");
      Ev_BasicAuth user pwd false]).
Proof.
  intros Hon Hpol Hhdr Hcred.
  apply policy_BasicOnly in Hpol as [Hbasic Htoken].
  unfold ServeHTTP, serveHTTP. gate_walk.
  all: gate_facts; congruence.
Qed.

End GateProperties.

Section TokenPath.
Context {H : Type} (E : Externals) (CFG : Config).
Implicit Types (ah : copAuthHandler H) (r : Request).

(** C2: on a token-only route, once the gate's token verification has
    returned a certificate, the request goes to the next handler exactly
    when the store, asked for the decimal serial and the hex authority key
    id of that certificate, returns no error and one record whose status is
    "good"; in every other case the answer is [authError]. *)
Theorem token_route_revocation_gate ah r authHdr body cert :
  policy_of ah = Some TokenOnly ->
  Ev_VerifyToken authHdr body (inl cert) ∈ snd (ServeHTTP E CFG ah r) ->
  let found := GetCertificate (certDBAccessor CFG)
                 (Int_String (SerialNumber cert))
                 (EncodeToString (AuthorityKeyId cert)) in
  let one_good := exists c, found = ([c], None) /\ Status c = "good" in
  let o := fst (ServeHTTP E CFG ah r) in
  (forwards ah o <-> one_good) /\ (~ one_good -> rejects_with authError o).
Proof.
  intros Hpol. unfold ServeHTTP, serveHTTP. gate_walk.
  all: intros Hin; event_in Hin; gate_facts.
  all: cbv zeta; unfold rejects_with;
    match goal with Hg : GetCertificate _ _ _ = _ |- _ => rewrite Hg end.
  all: split;
    [ split;
      [ intros Hf; first [destruct (forwards_not_error _ _ Hf) | eauto]
      | intros (c' & Heq & Hgood); simplify_eq; auto with gate; congruence ]
    | intros Hno; first [reflexivity | destruct Hno; eauto] ].
Qed.

(** C9: when a token-only gate hands a request on, the request the next
    handler receives has the headers and the body bytes the gate was given;
    and if the gate read the body for the token verification, the read
    ended without error and the body handed on is an unread reader that
    yields the very bytes the gate read. *)
Theorem token_route_body_round_trip ah r nxt r' :
  policy_of ah = Some TokenOnly ->
  fst (ServeHTTP E CFG ah r) = next_ServeHTTP nxt r' ->
  nxt = next ah
  /\ Header r' = Header (received E r)
  /\ unread (Body r') = unread (Body (received E r))
  /\ forall body err,
       Ev_ReadAll body err ∈ snd (ServeHTTP E CFG ah r) ->
       err = None /\ fst (ReadAll (Body r')) = (body, None).
Proof.
  intros Hpol. apply policy_TokenOnly in Hpol as [Hbasic Htoken].
  unfold ServeHTTP, serveHTTP. gate_walk.
  all: intros Hout; gate_facts; try congruence.
  all: split; [reflexivity | ]; split; [reflexivity | ];
    split; [reflexivity | ].
  all: intros body err' Hin; event_in Hin; gate_facts; auto.
Qed.

(** C10: on a token-only route, whenever the gate has read the body without
    a read error, the next thing it does is to put a fresh reader over the
    bytes back into the request, and only then does it verify the token;
    whatever [serveHTTP] returns afterwards, an error or nil, the request
    is left with that unread body. *)
Theorem token_route_body_restored ah r body :
  policy_of ah = Some TokenOnly ->
  let run := serveHTTP E CFG ah {| request := r; events := [] |} in
  Ev_ReadAll body None ∈ events (snd run) ->
  Body (request (snd run)) = NopCloser_NewReader body
  /\ fst (ReadAll (Body (request (snd run)))) = (body, None)
  /\ body = unread (Body (received E r))
  /\ exists pre authHdr res post,
       events (snd run)
       = (pre ++ Ev_ReadAll body None
                 :: Ev_set_Body (NopCloser_NewReader body)
                 :: Ev_VerifyToken authHdr body res :: post)%list
       /\ forall a b x, Ev_VerifyToken a b x ∉ pre.
Proof.
  intros Hpol. cbv zeta. unfold serveHTTP. gate_walk.
  all: intros Hin; event_in Hin; gate_facts.
  all: repeat split.
  all: eexists [_; _; _], _, _, _; split; [reflexivity | ].
  all: intros a b x Hin; event_in Hin.
Qed.

(** The error of a rejection, by the path that produced it: once the body
    has been read the error is [authError]; after a call of the registry
    it is the error the registry returned. *)
Lemma rejection_error_by_path ah r e :
  fst (ServeHTTP E CFG ah r) = api_HandleError e ->
  ((exists body err, Ev_ReadAll body err ∈ snd (ServeHTTP E CFG ah r)) ->
   e = authError)
  /\ (forall user pwd x,
        Ev_LoginUserBasicAuth user pwd x ∈ snd (ServeHTTP E CFG ah r) ->
        x = Some e
        /\ snd (LoginUserBasicAuth (UserRegistry CFG) user pwd) = Some e).
Proof.
  unfold ServeHTTP, serveHTTP. gate_walk.
  all: intros Hout; gate_facts.
  all: split;
    [ intros (body & err' & Hin) | intros user' pwd' x Hin ];
    event_in Hin; gate_facts; auto.
Qed.

End TokenPath.

(** ** One error for every failure: what holds *)

Section Uniformity.
Context {H : Type} (E : Externals) (CFG : Config).
Implicit Types (ah : copAuthHandler H) (r : Request).

Lemma rejected_for_token_cause ah r c e :
  c <> BadSecret -> rejected_for E CFG ah r c e -> e = authError.
Proof.
  intros Hc [Hout Hcause].
  apply (rejection_error_by_path E CFG ah r e Hout).
  destruct c; [congruence | | | ]; revert Hout Hcause;
    unfold ServeHTTP, serveHTTP; gate_walk; intros Hout Hcause;
    cbn [shows_cause] in Hcause.
  1-13: destruct Hcause as (serial & aki & rec & Hin & _);
    event_in Hin; eexists _, _; event_find.
  1-13: destruct Hcause as (serial & aki & certs' & e' & Hin);
    event_in Hin; eexists _, _; event_find.
  1-13: destruct Hcause as (hdr & body & e' & Hin);
    event_in Hin; eexists _, _; event_find.
Qed.

Lemma rejected_for_BadSecret ah r e :
  rejected_for E CFG ah r BadSecret e ->
  exists user pwd,
    Ev_LoginUserBasicAuth user pwd (Some e) ∈ snd (ServeHTTP E CFG ah r)
    /\ snd (LoginUserBasicAuth (UserRegistry CFG) user pwd) = Some e.
Proof.
  intros [Hout (user & pwd & e' & Hin)].
  destruct (rejection_error_by_path E CFG ah r e Hout) as [_ Hlogin].
  destruct (Hlogin _ _ _ Hin) as [Heq Hreg].
  injection Heq as ->. exists user, pwd. auto.
Qed.

(** C3, as the code has it: two requests refused because of a revoked
    certificate, a store error or an unverifiable token get the same error,
    [authError]; a request refused because the registry rejected the secret
    gets the error the registry returned, as it is. *)
Theorem rejection_uniform_except_registry ah1 ah2 r1 r2 c1 c2 e1 e2 :
  rejected_for E CFG ah1 r1 c1 e1 ->
  rejected_for E CFG ah2 r2 c2 e2 ->
  (c1 <> BadSecret -> c2 <> BadSecret -> e1 = e2 /\ e1 = authError)
  /\ (c1 = BadSecret ->
      exists user pwd,
        Ev_LoginUserBasicAuth user pwd (Some e1) ∈ snd (ServeHTTP E CFG ah1 r1)
        /\ snd (LoginUserBasicAuth (UserRegistry CFG) user pwd) = Some e1).
Proof.
  intros Hrej1 Hrej2. split.
  - intros Hc1 Hc2.
    rewrite (rejected_for_token_cause _ _ _ _ Hc1 Hrej1).
    rewrite (rejected_for_token_cause _ _ _ _ Hc2 Hrej2). auto.
  - intros ->. apply rejected_for_BadSecret. exact Hrej1.
Qed.

End Uniformity.

(** ** Runs of the sample deployment *)

Section SampleRuns.
Import Sample.


(** A bad secret and a revoked certificate are answered differently: the
    first with the registry's own error, the second with [authError]. *)
Lemma rejection_not_uniform : ~ uniform_rejection string E CFG.
Proof.
  intros Huniform.
  assert (Hbad : rejected_for E CFG enroll_gate (request_with [bob_header])
                   BadSecret (errors_New "Incorrect password")).
  { split; [vm_compute; reflexivity | ].
    exists "bob", "wrong", (errors_New "Incorrect password").
    vm_compute. event_find. }
  assert (Hrevoked : rejected_for E CFG revoke_gate
                       (request_with [revoked_token])
                       RevokedCertificate authError).
  { split; [vm_compute; reflexivity | ].
    exists "428", "deadbeef", (record "428" "revoked").
    split; [vm_compute; event_find | reflexivity]. }
  assert (Hcauses : BadSecret <> RevokedCertificate) by discriminate.
  pose proof (Huniform _ _ _ _ _ _ _ _ Hcauses Hbad Hrevoked) as Heq.
  discriminate Heq.
Qed.

Lemma disabled_authentication_forwards_sample :
  Authentication CFG_open = false
  /\ ServeHTTP E CFG_open revoke_gate (request_with [])
     = (next_ServeHTTP revoke_next (received E (request_with [])),
        [Ev_HTTPRequestToString]).
Proof.
  split; [reflexivity | ].
  apply (disabled_authentication_forwards E CFG_open revoke_gate).
  reflexivity.
Defined.

Lemma token_route_refuses_basic_credential_sample :
  Request_BasicAuth E (received E (request_with [alice_header]))
  = ("alice", "s3cret", true)
  /\ snd (LoginUserBasicAuth registry "alice" "s3cret") = None
  /\ fst (ServeHTTP E CFG revoke_gate (request_with [alice_header]))
     = api_HandleError (errors_New "Basic authentication is not allowed")
  /\ forall u p x,
       Ev_LoginUserBasicAuth u p x
       ∉ snd (ServeHTTP E CFG revoke_gate (request_with [alice_header])).
Proof.
  assert (Hcred : Request_BasicAuth E (received E (request_with [alice_header]))
                  = ("alice", "s3cret", true)) by (vm_compute; reflexivity).
  destruct (token_route_refuses_basic_credential E CFG revoke_gate
              (request_with [alice_header]) "alice" "s3cret")
    as [Hrun Hquiet]; [reflexivity | reflexivity | exact Hcred | ].
  split; [exact Hcred | ]. split; [reflexivity | ].
  split; [rewrite Hrun; reflexivity | exact Hquiet].
Defined.

Lemma basic_route_follows_registry_sample :
  (forwards enroll_gate
     (fst (ServeHTTP E CFG enroll_gate (request_with [alice_header])))
   <-> snd (LoginUserBasicAuth registry "alice" "s3cret") = None)
  /\ rejects_with (errors_New "Incorrect password")
       (fst (ServeHTTP E CFG enroll_gate (request_with [bob_header]))).
Proof.
  split.
  - apply (basic_route_follows_registry E CFG enroll_gate
             (request_with [alice_header]) "alice" "s3cret");
      [reflexivity | reflexivity | vm_compute; reflexivity].
  - apply (basic_route_follows_registry E CFG enroll_gate
             (request_with [bob_header]) "bob" "wrong");
      [reflexivity | reflexivity | vm_compute; reflexivity | reflexivity].
Defined.

(** The request of C1: "Authorization: Bearer abc" sent to the enroll
    route.  The gate calls neither the registry nor the token verifier and
    passes the request on. *)
Lemma basic_route_unparsed_header_forwarded_sample :
  policy_of enroll_gate = Some BasicOnly
  /\ Header_Get (Header (request_with [bearer_header])) "authorization"
     = "Bearer abc"
  /\ ServeHTTP E CFG enroll_gate (request_with [bearer_header])
     = (next_ServeHTTP enroll_next (received E (request_with [bearer_header])),
        [Ev_HTTPRequestToString;
         Ev_Header_Get "authorization" "Bearer abc";
         Ev_BasicAuth "" "" false]).
Proof.
  split; [reflexivity | ]. split; [vm_compute; reflexivity | ].
  apply (basic_route_unparsed_header_forwarded E CFG enroll_gate
           (request_with [bearer_header]) "" "");
    [reflexivity | reflexivity | vm_compute; discriminate
    | vm_compute; reflexivity].
Defined.

Lemma token_route_revocation_gate_sample :
  forwards revoke_gate
    (fst (ServeHTTP E CFG revoke_gate (request_with [good_token])))
  /\ rejects_with authError
       (fst (ServeHTTP E CFG revoke_gate (request_with [revoked_token]))).
Proof.
  split.
  - apply (token_route_revocation_gate E CFG revoke_gate
             (request_with [good_token]) good_token payload (cert_of 427));
      [reflexivity | vm_compute; event_find | ].
    exists (record "427" "good"). split; reflexivity.
  - apply (token_route_revocation_gate E CFG revoke_gate
             (request_with [revoked_token]) revoked_token payload (cert_of 428));
      [reflexivity | vm_compute; event_find | ].
    intros (c & Hfound & Hgood). vm_compute in Hfound.
    injection Hfound as <-. discriminate Hgood.
Defined.

Lemma token_route_body_round_trip_sample :
  fst (ServeHTTP E CFG revoke_gate (request_with [good_token]))
  = next_ServeHTTP revoke_next (request_with [good_token])
  /\ Ev_ReadAll payload None
     ∈ snd (ServeHTTP E CFG revoke_gate (request_with [good_token]))
  /\ fst (ReadAll (Body (request_with [good_token]))) = (payload, None).
Proof.
  assert (Hout : fst (ServeHTTP E CFG revoke_gate (request_with [good_token]))
                 = next_ServeHTTP revoke_next (request_with [good_token]))
    by (vm_compute; reflexivity).
  assert (Hread : Ev_ReadAll payload None
                  ∈ snd (ServeHTTP E CFG revoke_gate
                           (request_with [good_token])))
    by (vm_compute; event_find).
  split; [exact Hout | ]. split; [exact Hread | ].
  destruct (token_route_body_round_trip E CFG revoke_gate
              (request_with [good_token]) revoke_next
              (request_with [good_token]))
    as (_ & _ & _ & Hbody); [reflexivity | exact Hout | ].
  exact (proj2 (Hbody payload None Hread)).
Defined.

Lemma token_route_body_restored_sample :
  fst (serveHTTP E CFG revoke_gate
         {| request := request_with [revoked_token]; events := [] |})
  = Some authError
  /\ Body (request (snd (serveHTTP E CFG revoke_gate
                           {| request := request_with [revoked_token];
                              events := [] |})))
     = NopCloser_NewReader payload.
Proof.
  split; [vm_compute; reflexivity | ].
  apply (token_route_body_restored E CFG revoke_gate
           (request_with [revoked_token]) payload);
    [reflexivity | vm_compute; event_find].
Defined.

Lemma rejection_uniform_except_registry_sample :
  rejected_for E CFG revoke_gate (request_with [revoked_token])
    RevokedCertificate authError
  /\ rejected_for E CFG revoke_gate (request_with [lost_token])
       StoreError authError
  /\ authError = authError.
Proof.
  assert (Hrevoked : rejected_for E CFG revoke_gate
                       (request_with [revoked_token])
                       RevokedCertificate authError).
  { split; [vm_compute; reflexivity | ].
    exists "428", "deadbeef", (record "428" "revoked").
    split; [vm_compute; event_find | reflexivity]. }
  assert (Hlost : rejected_for E CFG revoke_gate (request_with [lost_token])
                    StoreError authError).
  { split; [vm_compute; reflexivity | ].
    exists "431", "deadbeef", [], (errors_New "database is locked").
    vm_compute. event_find. }
  split; [exact Hrevoked | ]. split; [exact Hlost | ].
  apply (rejection_uniform_except_registry E CFG _ _ _ _ _ _ _ _
           Hrevoked Hlost); discriminate.
Defined.

End SampleRuns.

(** ** What a run touches and whom it asks *)

(** Closes a goal that one of the recorded facts states. *)
Ltac run_fact :=
  first
    [ reflexivity | assumption | symmetry; assumption
    | match goal with
      | Hc : Request_BasicAuth _ _ = _ |- _ => rewrite Hc; reflexivity
      end ].

Section Frame.
Context {H : Type} (E : Externals) (CFG : Config).
Implicit Types (ah : copAuthHandler H) (r : Request).

(** A request that goes on is the request the gate was given. *)
Lemma forward_inversion ah r nxt r' :
  fst (ServeHTTP E CFG ah r) = next_ServeHTTP nxt r' ->
  nxt = next ah /\ r' = received E r.
Proof.
  unfold ServeHTTP, serveHTTP. gate_walk.
  all: intros Hout; gate_facts; split; try reflexivity.
  destruct (received E r) as [hdr [bytes end_of_body]].
  cbn in *. subst. reflexivity.
Qed.

(** The run of the gate depends on the request only through what the
    logging helper leaves of it. *)
Lemma ServeHTTP_received ah r1 r2 :
  received E r1 = received E r2 ->
  ServeHTTP E CFG ah r1 = ServeHTTP E CFG ah r2.
Proof.
  intros Hsame. unfold ServeHTTP, serveHTTP.
  rewrite !run_HTTPRequestToString. cbn [request events].
  rewrite Hsame. reflexivity.
Qed.

(** X1: with authentication on and no Authorization header the gate answers
    [errNoAuthHdr], whatever the handler's flags; it has fetched the header
    and done nothing else. *)
Theorem missing_header_stops_the_gate ah r :
  Authentication CFG = true ->
  Header_Get (Header (received E r)) "authorization" = "" ->
  ServeHTTP E CFG ah r
  = (api_HandleError (errNoAuthHdr E),
     [Ev_HTTPRequestToString; Ev_Header_Get "authorization" ""]).
Proof.
  intros Hon Hhdr. unfold ServeHTTP, serveHTTP. gate_walk.
  all: gate_facts; congruence.
Qed.

(** X2: the gate never changes the headers of the request, on any path. *)
Theorem gate_keeps_headers ah r :
  Header (request (snd (serveHTTP E CFG ah {| request := r; events := [] |})))
  = Header (received E r).
Proof. unfold serveHTTP. gate_walk. all: reflexivity. Qed.




(** X6: a body that cannot be read to its end: the gate answers [authError],
    the token is not verified, the store is not asked, and the body stays
    drained. *)
Theorem unreadable_body_rejected ah r user pwd e :
  Authentication CFG = true ->
  token ah = true ->
  Header_Get (Header (received E r)) "authorization" <> "" ->
  Request_BasicAuth E (received E r) = (user, pwd, false) ->
  fault (Body (received E r)) = Some e ->
  serveHTTP E CFG ah {| request := r; events := [] |}
  = (Some authError,
     {| request := {| Header := Header (received E r);
                      Body := {| unread := []; fault := Some e |} |};
        events := [Ev_HTTPRequestToString;
                   Ev_Header_Get "authorization"
                     (Header_Get (Header (received E r)) "authorization");
                   Ev_BasicAuth user pwd false;
                   Ev_ReadAll (unread (Body (received E r))) (Some e)] |}).
Proof.
  intros Hon Htoken Hhdr Hcred Hfault. unfold serveHTTP. gate_walk.
  all: gate_facts; try congruence.
Qed.

(** X7: the registry is asked only by a handler with the basic flag, with
    authentication on, about the credentials parsed from the header; the
    run records what it answered, and such a run does not touch the body,
    the token verifier or the store. *)
Theorem registry_asked_about_parsed_credentials ah r user pwd x :
  Ev_LoginUserBasicAuth user pwd x ∈ snd (ServeHTTP E CFG ah r) ->
  Authentication CFG = true
  /\ basic ah = true
  /\ Request_BasicAuth E (received E r) = (user, pwd, true)
  /\ x = snd (LoginUserBasicAuth (UserRegistry CFG) user pwd)
  /\ forall ev, ev ∈ snd (ServeHTTP E CFG ah r) -> token_side ev = false.
Proof.
  unfold ServeHTTP, serveHTTP. gate_walk.
  all: intros Hin; event_in Hin; gate_facts.
  all: repeat (split; [run_fact | ]).
  all: intros ev Hev; event_in Hev; subst ev; reflexivity.
Qed.

(** X8: the token verifier is called only by a handler with the token flag,
    with authentication on, for a header that is present and is not Basic
    credentials; it is given that header value and the whole body, which
    was read without error. *)
Theorem verifier_given_header_and_whole_body ah r authHdr body res :
  Ev_VerifyToken authHdr body res ∈ snd (ServeHTTP E CFG ah r) ->
  Authentication CFG = true
  /\ token ah = true
  /\ authHdr = Header_Get (Header (received E r)) "authorization"
  /\ authHdr <> ""
  /\ snd (Request_BasicAuth E (received E r)) = false
  /\ body = unread (Body (received E r))
  /\ fault (Body (received E r)) = None
  /\ res = VerifyToken E authHdr body
  /\ forall ev, ev ∈ snd (ServeHTTP E CFG ah r) -> registry_side ev = false.
Proof.
  unfold ServeHTTP, serveHTTP. gate_walk.
  all: intros Hin; event_in Hin; gate_facts.
  all: repeat (split; [run_fact | ]).
  all: intros ev Hev; event_in Hev; subst ev; reflexivity.
Qed.

(** X9: the store is asked only about a certificate the token verifier has
    returned, under the decimal serial number and the hex authority key id
    of that certificate. *)
Theorem store_asked_about_verified_certificate ah r serial aki certs err :
  Ev_GetCertificate serial aki certs err ∈ snd (ServeHTTP E CFG ah r) ->
  exists cert,
    VerifyToken E (Header_Get (Header (received E r)) "authorization")
      (unread (Body (received E r))) = inl cert
    /\ serial = Int_String (SerialNumber cert)
    /\ aki = EncodeToString (AuthorityKeyId cert)
    /\ (certs, err) = GetCertificate (certDBAccessor CFG) serial aki.
Proof.
  unfold ServeHTTP, serveHTTP. gate_walk.
  all: intros Hin; event_in Hin; gate_facts.
  all: eexists; repeat split; eauto.
Qed.

(** X10: the errors the gate can answer with: [errNoAuthHdr],
    [errBasicAuthNotAllowed], [authError], or the error the registry
    returned for the credentials of the header; and it answers with an
    error only when authentication is on. *)
Theorem rejection_errors ah r e :
  fst (ServeHTTP E CFG ah r) = api_HandleError e ->
  Authentication CFG = true
  /\ (e = errNoAuthHdr E
      \/ e = errBasicAuthNotAllowed E
      \/ e = authError
      \/ exists user pwd,
           Request_BasicAuth E (received E r) = (user, pwd, true)
           /\ snd (LoginUserBasicAuth (UserRegistry CFG) user pwd) = Some e).
Proof.
  unfold ServeHTTP, serveHTTP. gate_walk.
  all: intros Hout; gate_facts; (split; [run_fact | eauto 8]).
Qed.

(** X11: with authentication on, a token-only gate hands a request on only if
    the token in its header verifies over its body and the store has one
    record, of status "good", for the certificate. *)
Theorem token_route_forwards_only_good_certificate ah r :
  Authentication CFG = true ->
  policy_of ah = Some TokenOnly ->
  forwards ah (fst (ServeHTTP E CFG ah r)) ->
  exists cert rec,
    VerifyToken E (Header_Get (Header (received E r)) "authorization")
      (unread (Body (received E r))) = inl cert
    /\ GetCertificate (certDBAccessor CFG) (Int_String (SerialNumber cert))
         (EncodeToString (AuthorityKeyId cert)) = ([rec], None)
    /\ Status rec = "good"
    /\ fault (Body (received E r)) = None.
Proof.
  intros Hon Hpol. apply policy_TokenOnly in Hpol as [Hbasic Htoken].
  unfold ServeHTTP, serveHTTP. gate_walk.
  all: intros Hf; try (destruct (forwards_not_error _ _ Hf)).
  all: gate_facts; try congruence.
  eexists _, _. repeat split; eauto.
Qed.

End Frame.

(** ** The lookup key *)

Lemma hex_decode_byte (b : byte) (s : string) :
  hex_decode (String (hexdigit (N.shiftr (Byte.to_N b) 4))
                (String (hexdigit (N.land (Byte.to_N b) 15)) s))
  = b :: hex_decode s.
Proof. destruct b; reflexivity. Qed.

Lemma hex_decode_EncodeToString (src : list byte) :
  hex_decode (EncodeToString src) = src.
Proof.
  induction src as [| b src IH]; [reflexivity | ].
  cbn [EncodeToString]. rewrite hex_decode_byte, IH. reflexivity.
Qed.

Lemma EncodeToString_inj (a1 a2 : list byte) :
  EncodeToString a1 = EncodeToString a2 -> a1 = a2.
Proof.
  intros Heq. rewrite <- (hex_decode_EncodeToString a1), Heq.
  apply hex_decode_EncodeToString.
Qed.

Lemma Int_String_inj (x y : Z) : Int_String x = Int_String y -> x = y.
Proof. unfold Int_String. apply (inj pretty). Qed.

Section LookupKey.
Context {H : Type} (E : Externals) (CFG : Config).
Implicit Types (ah : copAuthHandler H) (r : Request).

Lemma store_event_inversion ah r serial aki certs err :
  Ev_GetCertificate serial aki certs err ∈ snd (ServeHTTP E CFG ah r) ->
  exists cert,
    VerifyToken E (Header_Get (Header (received E r)) "authorization")
      (unread (Body (received E r))) = inl cert
    /\ serial = Int_String (SerialNumber cert)
    /\ aki = EncodeToString (AuthorityKeyId cert).
Proof.
  unfold ServeHTTP, serveHTTP. gate_walk.
  all: intros Hin; event_in Hin; gate_facts.
  all: eexists; repeat split; eauto.
Qed.


End LookupKey.

(** ** Factory and gate together *)

Section Routes.
Context {H : Type} (E : Externals) (CFG : Config).
Implicit Types (ah : copAuthHandler H) (r : Request) (handler : Handler H).

Lemma NewAuthWrapper_route (path : string) handler err :
  fst (fst (NewAuthWrapper path handler err)) = wrappedPath path.
Proof.
  destruct (decide (path = "sign" \/ path = "enroll")) as [Hpath | Hpath].
  - rewrite (NewAuthWrapper_basic _ _ _ Hpath). reflexivity.
  - rewrite (NewAuthWrapper_token _ _ _ Hpath). reflexivity.
Qed.

(** X13: two endpoints wrapped under the same route are the same endpoint,
    whatever the handlers and the errors passed along. *)
Theorem wrapped_routes_distinct (path1 path2 : string) handler1 handler2
    err1 err2 :
  fst (fst (NewAuthWrapper path1 handler1 err1))
  = fst (fst (NewAuthWrapper path2 handler2 err2)) ->
  path1 = path2.
Proof.
  rewrite !NewAuthWrapper_route. unfold wrappedPath. cbn.
  intros Heq. simplify_eq. reflexivity.
Qed.

Lemma no_token_flag_no_token_side ah r :
  token ah = false ->
  forall ev, ev ∈ snd (ServeHTTP E CFG ah r) -> token_side ev = false.
Proof.
  intros Htoken. unfold ServeHTTP, serveHTTP. gate_walk.
  all: try congruence.
  all: intros ev Hev; event_in Hev; subst ev; reflexivity.
Qed.

Lemma no_basic_flag_no_registry ah r :
  basic ah = false ->
  forall ev, ev ∈ snd (ServeHTTP E CFG ah r) -> registry_side ev = false.
Proof.
  intros Hbasic. unfold ServeHTTP, serveHTTP. gate_walk.
  all: try congruence.
  all: intros ev Hev; event_in Hev; subst ev; reflexivity.
Qed.

(** X14: the gate the factory builds for "sign" or "enroll" wraps the handler it
    was given and never reads the body, never verifies a token and never
    asks the certificate store, whatever the request. *)
Theorem issuance_gate_stays_off_token_side (path route : string) handler ah r :
  path = "sign" \/ path = "enroll" ->
  NewAuthWrapper path handler None = (route, auth_Handler ah, None) ->
  next ah = handler
  /\ forall ev, ev ∈ snd (ServeHTTP E CFG ah r) -> token_side ev = false.
Proof.
  intros Hpath Hbuilt. rewrite (NewAuthWrapper_basic _ _ _ Hpath) in Hbuilt.
  cbn in Hbuilt. injection Hbuilt as _ <-.
  split; [reflexivity | ]. apply no_token_flag_no_token_side. reflexivity.
Qed.

(** X15: the gate the factory builds for any other endpoint wraps the handler
    it was given and never asks the user registry, whatever the request. *)
Theorem token_gate_stays_off_registry (path route : string) handler ah r :
  ~ (path = "sign" \/ path = "enroll") ->
  NewAuthWrapper path handler None = (route, auth_Handler ah, None) ->
  next ah = handler
  /\ forall ev, ev ∈ snd (ServeHTTP E CFG ah r) -> registry_side ev = false.
Proof.
  intros Hpath Hbuilt. rewrite (NewAuthWrapper_token _ _ _ Hpath) in Hbuilt.
  cbn in Hbuilt. injection Hbuilt as _ <-.
  split; [reflexivity | ]. apply no_basic_flag_no_registry. reflexivity.
Qed.

End Routes.

(** ** More runs of the two deployments *)

Section MoreRuns.
Import Sample.

Lemma missing_header_stops_the_gate_sample :
  ServeHTTP E CFG revoke_gate (request_with [])
  = (api_HandleError (errors_New "No authorization header"),
     [Ev_HTTPRequestToString; Ev_Header_Get "authorization" ""]).
Proof.
  apply (missing_header_stops_the_gate E CFG revoke_gate (request_with []));
    [reflexivity | vm_compute; reflexivity].
Defined.




Lemma unreadable_body_rejected_sample :
  fault (Body (received Plain.E Plain.broken_request))
  = Some (errors_New "unexpected EOF")
  /\ fst (serveHTTP Plain.E CFG Plain.either_gate
            {| request := Plain.broken_request; events := [] |})
     = Some authError
  /\ Body (request (snd (serveHTTP Plain.E CFG Plain.either_gate
                           {| request := Plain.broken_request;
                              events := [] |})))
     = {| unread := []; fault := Some (errors_New "unexpected EOF") |}.
Proof.
  assert (Hrun := unreadable_body_rejected Plain.E CFG Plain.either_gate
                    Plain.broken_request "" ""
                    (errors_New "unexpected EOF")).
  split; [reflexivity | ].
  rewrite Hrun;
    [ split; reflexivity | reflexivity | reflexivity
    | vm_compute; discriminate | vm_compute; reflexivity | reflexivity ].
Defined.

Lemma registry_asked_about_parsed_credentials_sample :
  Ev_LoginUserBasicAuth "bob" "wrong" (Some (errors_New "Incorrect password"))
  ∈ snd (ServeHTTP E CFG enroll_gate (request_with [bob_header]))
  /\ Request_BasicAuth E (received E (request_with [bob_header]))
     = ("bob", "wrong", true).
Proof.
  assert (Hin : Ev_LoginUserBasicAuth "bob" "wrong"
                  (Some (errors_New "Incorrect password"))
                ∈ snd (ServeHTTP E CFG enroll_gate (request_with [bob_header])))
    by (vm_compute; event_find).
  split; [exact Hin | ].
  exact (proj1 (proj2 (proj2
    (registry_asked_about_parsed_credentials E CFG enroll_gate
       (request_with [bob_header]) "bob" "wrong" _ Hin)))).
Defined.

Lemma verifier_given_header_and_whole_body_sample :
  Ev_VerifyToken revoked_token payload (inl (cert_of 428))
  ∈ snd (ServeHTTP E CFG revoke_gate (request_with [revoked_token]))
  /\ payload = unread (Body (received E (request_with [revoked_token]))).
Proof.
  assert (Hin : Ev_VerifyToken revoked_token payload (inl (cert_of 428))
                ∈ snd (ServeHTTP E CFG revoke_gate
                         (request_with [revoked_token])))
    by (vm_compute; event_find).
  split; [exact Hin | ].
  destruct (verifier_given_header_and_whole_body E CFG revoke_gate
              (request_with [revoked_token]) _ _ _ Hin)
    as (_ & _ & _ & _ & _ & Hbody & _).
  exact Hbody.
Defined.

Lemma store_asked_about_verified_certificate_sample :
  exists cert,
    VerifyToken E
      (Header_Get (Header (received E (request_with [lost_token])))
         "authorization")
      (unread (Body (received E (request_with [lost_token])))) = inl cert
    /\ "431" = Int_String (SerialNumber cert)
    /\ "deadbeef" = EncodeToString (AuthorityKeyId cert)
    /\ ([], Some (errors_New "database is locked"))
       = GetCertificate (certDBAccessor CFG) "431" "deadbeef".
Proof.
  apply (store_asked_about_verified_certificate E CFG revoke_gate
           (request_with [lost_token])).
  vm_compute. event_find.
Defined.

Lemma rejection_errors_sample :
  fst (ServeHTTP E CFG revoke_gate (request_with [alice_header]))
  = api_HandleError (errors_New "Basic authentication is not allowed")
  /\ Authentication CFG = true.
Proof.
  assert (Hout : fst (ServeHTTP E CFG revoke_gate (request_with [alice_header]))
                 = api_HandleError
                     (errors_New "Basic authentication is not allowed"))
    by (vm_compute; reflexivity).
  split; [exact Hout | ].
  exact (proj1 (rejection_errors E CFG revoke_gate
                  (request_with [alice_header]) _ Hout)).
Defined.

Lemma token_route_forwards_only_good_certificate_sample :
  forwards revoke_gate
    (fst (ServeHTTP E CFG revoke_gate (request_with [good_token])))
  /\ exists cert rec,
       VerifyToken E
         (Header_Get (Header (received E (request_with [good_token])))
            "authorization")
         (unread (Body (received E (request_with [good_token])))) = inl cert
       /\ GetCertificate (certDBAccessor CFG) (Int_String (SerialNumber cert))
            (EncodeToString (AuthorityKeyId cert)) = ([rec], None)
       /\ Status rec = "good"
       /\ fault (Body (received E (request_with [good_token]))) = None.
Proof.
  assert (Hf : forwards revoke_gate
                 (fst (ServeHTTP E CFG revoke_gate (request_with [good_token]))))
    by (exists (request_with [good_token]); vm_compute; reflexivity).
  split; [exact Hf | ].
  apply (token_route_forwards_only_good_certificate E CFG revoke_gate
           (request_with [good_token])); [reflexivity | reflexivity | exact Hf].
Defined.


Lemma wrapped_routes_distinct_sample :
  fst (fst (NewAuthWrapper "sign" enroll_next None))
  = fst (fst (NewAuthWrapper "sign" revoke_next
                (Some (errors_New "no signer"))))
  /\ "sign" = "sign".
Proof.
  assert (Hroute : fst (fst (NewAuthWrapper "sign" enroll_next None))
                   = fst (fst (NewAuthWrapper "sign" revoke_next
                                 (Some (errors_New "no signer")))))
    by reflexivity.
  split; [exact Hroute | ].
  exact (wrapped_routes_distinct "sign" "sign" enroll_next revoke_next
           None (Some (errors_New "no signer")) Hroute).
Defined.

Lemma issuance_gate_stays_off_token_side_sample :
  NewAuthWrapper "enroll" enroll_next None
  = ("/api/v1/cfssl/enroll", auth_Handler enroll_gate, None)
  /\ next enroll_gate = enroll_next
  /\ forall ev,
       ev ∈ snd (ServeHTTP E CFG enroll_gate (request_with [good_token])) ->
       token_side ev = false.
Proof.
  split; [reflexivity | ].
  apply (issuance_gate_stays_off_token_side E CFG "enroll"
           "/api/v1/cfssl/enroll" enroll_next enroll_gate
           (request_with [good_token])); [right; reflexivity | reflexivity].
Defined.

Lemma token_gate_stays_off_registry_sample :
  NewAuthWrapper "revoke" revoke_next None
  = ("/api/v1/cfssl/revoke", auth_Handler revoke_gate, None)
  /\ next revoke_gate = revoke_next
  /\ forall ev,
       ev ∈ snd (ServeHTTP E CFG revoke_gate (request_with [alice_header])) ->
       registry_side ev = false.
Proof.
  split; [reflexivity | ].
  apply (token_gate_stays_off_registry E CFG "revoke"
           "/api/v1/cfssl/revoke" revoke_next revoke_gate
           (request_with [alice_header]));
    [intros [Hs | He]; discriminate | reflexivity].
Defined.

End MoreRuns.
